(** * Signature engine backend: field overlay, finalisation and audit

    A shallow embedding of [src/server.js] (the [/upload-pdf] and
    [/finalize-pdf] handlers) and of [src/models/Audit.js].

    Conventions of the embedding.
    - JavaScript numbers are idealised as exact rationals ([Q]); IEEE-754
      rounding, [NaN] and the infinities are not modelled.  Equality of
      computed coordinates is therefore [Qeq] ([==]).  [Binary64.field_rect]
      repeats the four geometry formulas on machine floats, to show the size
      of the idealisation on the sample request.
    - The collaborators of the handlers (pdf-lib, [crypto], [Buffer],
      the file system, Mongoose) are represented by what the handlers
      observe of them: a document is its pages with the drawing calls issued
      on each, the file system is a finite map from paths to bytes, the
      audit collection is the list of stored records.  The functions whose
      results the handlers merely pass along ([sha256], [PDFDocument.load],
      [save], [embedJpg], [embedPng], base64 decoding) are section
      variables.
    - A JavaScript exception is a [Throw] result; the [try]/[catch] of a
      handler turns it into a 500 response. *)

From Stdlib Require Import QArith Qminmax Lqa Ascii String PrimFloat.
From stdpp Require Import gmap strings list pretty.

Local Open Scope string_scope.
Local Open Scope Z_scope.

(** ** Data model *)

Abbreviation bytes := (list Byte.byte).

(** One entry of [req.body.fields]. *)
Record Field := mkField {
  page : Z;
  type : string;
  value : string;
  xRatio : Q;
  yRatio : Q;
  wRatio : Q;
  hRatio : Q
}.

(** The four constants [x], [y], [w], [h] of the loop body. *)
Record Rect := mkRect { x : Q; y : Q; w : Q; h : Q }.

(** [rgb(r, g, b)] of pdf-lib. *)
Record Color := rgb { red : Q; green : Q; blue : Q }.

Inductive ImageFormat := Jpg | Png.

(** What [embedJpg]/[embedPng] return: the handler reads [width] and
    [height] of it and passes it to [drawImage]. *)
Record PDFImage := mkImage {
  img_format : ImageFormat;
  img_bytes : bytes;
  img_width : Q;
  img_height : Q
}.

(** The two drawing calls the handler issues, with their option objects. *)
Inductive DrawOp :=
| drawText (text : string) (tx ty : Q) (size : Q) (color : Color)
| drawImage (img : PDFImage) (ix iy : Q) (iwidth iheight : Q).

(** A page: its size ([page.getSize()]) and the drawing calls received. *)
Record PDFPage := mkPage {
  width : Q;
  height : Q;
  content : list DrawOp
}.

Record PDFDocument := mkDoc {
  pages : list PDFPage;
  embedded : list PDFImage
}.

(** [auditSchema] of [models/Audit.js]. *)
Record Audit := mkAudit {
  pdfId : string;
  originalHash : string;
  finalHash : string;
  createdAt : Z
}.

(** The state the two handlers act on: the [uploads] directory and the
    audit collection. *)
Record Server := mkServer {
  files : gmap string bytes;
  audits : list Audit
}.

(** What a request cannot control: the clock, and whether the disk and the
    database accept a write. *)
Record World := mkWorld {
  Date_now : Z;
  fs_write_ok : bool;
  db_write_ok : bool
}.

Inductive Exn :=
| ReadFailed
| LoadFailed
| EmbedFailed (fmt : ImageFormat)
| WriteFailed
| AuditFailed.

Inductive result (A : Type) :=
| Ok (a : A)
| Throw (e : Exn).
Arguments Ok {A} a.
Arguments Throw {A} e.

Definition bind {A B} (r : result A) (k : A -> result B) : result B :=
  match r with
  | Ok a => k a
  | Throw e => Throw e
  end.

Notation "'let*' a ':=' r 'in' k" := (bind r (fun a => k))
  (at level 10, a name, r at level 100, k at level 200).

(** A handler body: it reads and writes the server state and may throw; what
    it wrote before throwing stays written. *)
Definition Handler (A : Type) : Type := Server -> result A * Server.

Definition ret {A} (a : A) : Handler A := fun st => (Ok a, st).

Definition lift {A} (r : result A) : Handler A := fun st => (r, st).

Definition and_then {A B} (m : Handler A) (k : A -> Handler B) : Handler B :=
  fun st =>
    match m st with
    | (Ok a, st') => k a st'
    | (Throw e, st') => (Throw e, st')
    end.

Notation "a <~ m ;; k" := (and_then m (fun a => k))
  (at level 100, m at next level, k at level 200, right associativity).

(** [try { body } catch (err) { res.status(500).json(...) }]. *)
Definition try_catch {A} (body : Handler A) (handler : Exn -> A)
  : Server -> A * Server :=
  fun st =>
    match body st with
    | (Ok a, st') => (a, st')
    | (Throw e, st') => (handler e, st')
    end.

Inductive Response :=
| Json200_upload (pdfId url : string)
| Json200_final (url originalHash finalHash : string)
| Json400 (error : string)
| Json404 (error : string)
| Json500 (error : string).

(** ** Geometry (server.js, lines 112-117) *)

Definition field_rect (field : Field) (width height : Q) : Rect :=
  {| x := (xRatio field * width)%Q;
     y := (height - yRatio field * height - hRatio field * height)%Q;
     w := (wRatio field * width)%Q;
     h := (hRatio field * height)%Q |}.

(** ** Signature image placement (server.js, lines 140-149) *)

Definition image_box (r : Rect) (img : PDFImage) : Rect :=
  let scale := (Qmin (w r / img_width img) (h r / img_height img))%Q in
  let drawW := (img_width img * scale)%Q in
  let drawH := (img_height img * scale)%Q in
  {| x := (x r + (w r - drawW) / 2)%Q;
     y := (y r + (h r - drawH) / 2)%Q;
     w := drawW;
     h := drawH |}.

(** ** Data-URI handling (server.js, lines 131-138) *)

(** [\w] of a JavaScript regular expression without the [u] flag. *)
Definition is_word_char (c : ascii) : bool :=
  let n := nat_of_ascii c in
  ((48 <=? n) && (n <=? 57) || (65 <=? n) && (n <=? 90)
   || (97 <=? n) && (n <=? 122) || (n =? 95))%nat.

Fixpoint strip_prefix (p s : string) : option string :=
  match p, s with
  | EmptyString, _ => Some s
  | String a p', String b s' =>
      if Ascii.eqb a b then strip_prefix p' s' else None
  | String _ _, EmptyString => None
  end.

(** The longest run of word characters at the head of [s], dropped. *)
Fixpoint drop_word (s : string) : string :=
  match s with
  | String c s' => if is_word_char c then drop_word s' else s
  | EmptyString => s
  end.

(** [value.replace(/^data:image\/\w+;base64,/, "")].  The character after
    the run matched by [\w+] has to be [;], which is no word character, so
    only the longest run can lead to a match. *)
Definition strip_data_uri (value : string) : string :=
  match strip_prefix "data:image/" value with
  | Some rest =>
      match rest with
      | String c _ =>
          if is_word_char c then
            match strip_prefix ";base64," (drop_word rest) with
            | Some payload => payload
            | None => value
            end
          else value
      | EmptyString => value
      end
  | None => value
  end.

(** [s.includes(needle)]. *)
Fixpoint includes (needle s : string) : bool :=
  match strip_prefix needle s with
  | Some _ => true
  | None =>
      match s with
      | String _ s' => includes needle s'
      | EmptyString => false
      end
  end.

(** Truthiness of a string: [""] is the only falsy one. *)
Definition truthy (s : string) : bool :=
  match s with
  | EmptyString => false
  | String _ _ => true
  end.

(** ** Pages *)

(** [pages[n]] for a number [n]: [undefined] below zero and past the end. *)
Definition page_at (ps : list PDFPage) (n : Z) : option PDFPage :=
  if n <? 0 then None else ps !! Z.to_nat n.

Definition add_op (op : DrawOp) (pg : PDFPage) : PDFPage :=
  {| width := width pg; height := height pg; content := content pg ++ [op] |}.

(** A drawing call on the page object found at index [n]. *)
Definition draw_on (doc : PDFDocument) (n : Z) (op : DrawOp) : PDFDocument :=
  {| pages := alter (add_op op) (Z.to_nat n) (pages doc);
     embedded := embedded doc |}.

Definition embed (doc : PDFDocument) (img : PDFImage) : PDFDocument :=
  {| pages := pages doc; embedded := embedded doc ++ [img] |}.

(** ** File system and audit collection *)

Definition original_path (pdfId : string) : string :=
  "original/" +:+ pdfId +:+ ".pdf".

Definition signed_path (pdfId : string) : string :=
  "signed/" +:+ pdfId +:+ "-final.pdf".

Definition existsSync (path : string) : Handler bool :=
  fun st => (Ok (bool_decide (is_Some (files st !! path))), st).

Definition readFileSync (path : string) : Handler bytes :=
  fun st =>
    match files st !! path with
    | Some b => (Ok b, st)
    | None => (Throw ReadFailed, st)
    end.

Definition writeFileSync (world : World) (path : string) (data : bytes)
  : Handler unit :=
  fun st =>
    if fs_write_ok world
    then (Ok tt, {| files := <[path := data]> (files st); audits := audits st |})
    else (Throw WriteFailed, st).

(** [required: true] on a [String] path rejects the empty string. *)
Definition validate (a : Audit) : bool :=
  truthy (pdfId a) && truthy (originalHash a) && truthy (finalHash a).

(** [Audit.create(doc)]: one more document in the collection, or a
    rejection that leaves the collection as it was. *)
Definition Audit_create (world : World) (a : Audit) : Handler unit :=
  fun st =>
    if validate a && db_write_ok world
    then (Ok tt, {| files := files st; audits := audits st ++ [a] |})
    else (Throw AuditFailed, st).

Section Handlers.

(** [process.env.BASE_URL]. *)
Variable BASE_URL : string.

(** [crypto.createHash("sha256").update(buffer).digest("hex")]. *)
Variable sha256 : bytes -> string.

(** [PDFDocument.load] (throws on bytes that are no PDF) and
    [pdfDoc.save()]. *)
Variable PDFDocument_load : bytes -> option PDFDocument.
Variable save : PDFDocument -> bytes.

(** [Buffer.from(s, "base64")]. *)
Variable Buffer_from_base64 : string -> bytes.

(** The image decoders behind [embedJpg] and [embedPng]: the size of the
    image, or nothing when the bytes are no image of that format. *)
Variable decodeJpg decodePng : bytes -> option (Q * Q).

Definition load (b : bytes) : result PDFDocument :=
  match PDFDocument_load b with
  | Some doc => Ok doc
  | None => Throw LoadFailed
  end.

Definition embedJpg (b : bytes) : result PDFImage :=
  match decodeJpg b with
  | Some (iw, ih) =>
      Ok {| img_format := Jpg; img_bytes := b; img_width := iw; img_height := ih |}
  | None => Throw (EmbedFailed Jpg)
  end.

Definition embedPng (b : bytes) : result PDFImage :=
  match decodePng b with
  | Some (iw, ih) =>
      Ok {| img_format := Png; img_bytes := b; img_width := iw; img_height := ih |}
  | None => Throw (EmbedFailed Png)
  end.

(** The image a signature value is embedded as (lines 131-138). *)
Definition embed_value (value : string) : result PDFImage :=
  let imgBytes := Buffer_from_base64 (strip_data_uri value) in
  if includes "jpeg" value then embedJpg imgBytes else embedPng imgBytes.

(** ** The body of the field loop (server.js, lines 109-150) *)

Definition render_field (pdfDoc : PDFDocument) (field : Field)
  : result PDFDocument :=
  let n := page field - 1 in
  match page_at (pages pdfDoc) n with
  | None => Ok pdfDoc
  | Some pg =>
      let r := field_rect field (width pg) (height pg) in
      let pdfDoc :=
        if (String.eqb (type field) "text" || String.eqb (type field) "date")
           && truthy (value field)
        then draw_on pdfDoc n
               (drawText (value field) (x r) (y r + h r * 0.35)%Q 11%Q
                  (rgb 0 0 0))
        else pdfDoc in
      if String.eqb (type field) "signature" && truthy (value field) then
        let imgBytes := Buffer_from_base64 (strip_data_uri (value field)) in
        let* img := (if includes "jpeg" (value field)
                     then embedJpg imgBytes
                     else embedPng imgBytes) in
        let b := image_box r img in
        Ok (draw_on (embed pdfDoc img) n
              (drawImage img (x b) (y b) (w b) (h b)))
      else Ok pdfDoc
  end.

(** [for (const field of fields) { ... }]. *)
Fixpoint render_fields (pdfDoc : PDFDocument) (fields : list Field)
  : result PDFDocument :=
  match fields with
  | [] => Ok pdfDoc
  | field :: rest =>
      let* pdfDoc' := render_field pdfDoc field in
      render_fields pdfDoc' rest
  end.

(** ** POST /upload-pdf (server.js, lines 70-89) *)

Definition upload_pdf (world : World) (file : option bytes)
  : Server -> Response * Server :=
  try_catch
    match file with
    | None => ret (Json400 "No PDF uploaded")
    | Some buffer =>
        let pdfId := pretty (Date_now world) in
        _ <~ writeFileSync world (original_path pdfId) buffer ;;
        ret (Json200_upload pdfId
               (BASE_URL +:+ "/files/original/" +:+ pdfId +:+ ".pdf"))
    end
    (fun _ => Json500 "PDF upload failed").

(** ** POST /finalize-pdf (server.js, lines 92-179) *)

Definition finalize_pdf (world : World) (pdfId : string) (fields : list Field)
  : Server -> Response * Server :=
  try_catch
    (found <~ existsSync (original_path pdfId) ;;
     if negb found then ret (Json404 "PDF not found") else
     originalBytes <~ readFileSync (original_path pdfId) ;;
     let originalHash := sha256 originalBytes in
     pdfDoc <~ lift (load originalBytes) ;;
     pdfDoc <~ lift (render_fields pdfDoc fields) ;;
     let finalPdf := save pdfDoc in
     let finalHash := sha256 finalPdf in
     _ <~ writeFileSync world (signed_path pdfId) finalPdf ;;
     _ <~ Audit_create world
            {| pdfId := pdfId;
               originalHash := originalHash;
               finalHash := finalHash;
               createdAt := Date_now world |} ;;
     ret (Json200_final
            (BASE_URL +:+ "/files/signed/" +:+ pdfId +:+ "-final.pdf")
            originalHash finalHash))
    (fun _ => Json500 "PDF finalization failed").

End Handlers.

(** ** Vocabulary of the statements *)




(** A non-empty run of word characters is what [\w+] matches. *)
Fixpoint all_word (s : string) : bool :=
  match s with
  | String c s' => is_word_char c && all_word s'
  | EmptyString => true
  end.

(** The three types the loop body has a branch for. *)
Definition known_type (t : string) : Prop :=
  t = "text" \/ t = "date" \/ t = "signature".

(** ** Sample data *)

(** The field of the end-to-end scenario, on a 612 by 792 page. *)
Definition sample_field (type value : string) : Field :=
  {| page := 1; type := type; value := value;
     xRatio := 0.1; yRatio := 0.1; wRatio := 0.3; hRatio := 0.05 |}.

Definition blank_page : PDFPage :=
  {| width := 612; height := 792; content := [] |}.

Definition blank_doc : PDFDocument :=
  {| pages := [blank_page]; embedded := [] |}.



Definition sample_world : World :=
  {| Date_now := 1700000000000; fs_write_ok := true; db_write_ok := true |}.

Definition empty_server : Server := {| files := ∅; audits := [] |}.

(** Stand-ins for the collaborators, to run the handlers on sample data: a
    digest that is one fixed hex string, a parser that reads every file as
    the blank one-page document, decoders that accept nothing. *)
Definition sample_base : string := "http://localhost:5000".
Definition sample_sha256 (b : bytes) : string := "e3b0c44298fc1c14".
Definition sample_load (b : bytes) : option PDFDocument := Some blank_doc.
Definition sample_save (doc : PDFDocument) : bytes := [].
Definition sample_base64 (s : string) : bytes := [].
Definition no_decode (b : bytes) : option (Q * Q) := None.

(** A server holding one uploaded document, ["1"]. *)
Definition sample_server : Server :=
  {| files := {[ original_path "1" := [] ]}; audits := [] |}.

(** ** The geometry on binary64 numbers *)

Module Binary64.

(** Lines 114-117 with the operations of IEEE-754 double precision. *)
Definition field_rect (xRatio yRatio wRatio hRatio width height : float)
  : float * float * float * float :=
  (xRatio * width,
   height - yRatio * height - hRatio * height,
   wRatio * width,
   hRatio * height)%float.

End Binary64.

(** ** Vocabulary of the loop *)

(** The guards of the loop body, as functions of the field and of the number
    of pages: the page exists, the text branch is taken, the signature branch
    is taken. *)
Definition on_page (n : nat) (field : Field) : bool :=
  (0 <=? page field - 1) && (page field - 1 <? Z.of_nat n).

Definition draws_text (field : Field) : bool :=
  (String.eqb (type field) "text" || String.eqb (type field) "date")
  && truthy (value field).

Definition draws_image (field : Field) : bool :=
  String.eqb (type field) "signature" && truthy (value field).

Definition drawable (n : nat) (field : Field) : bool :=
  on_page n field && (draws_text field || draws_image field).

(** Fields aimed at the page of index [i]. *)
Definition targets (i : nat) (field : Field) : bool :=
  (0 <=? page field - 1) && (Z.to_nat (page field - 1) =? i)%nat.

(** Drawing calls received by the whole document. *)
Definition total_ops (doc : PDFDocument) : nat :=
  sum_list (map (fun pg => length (content pg)) (pages doc)).


Section LoopVocabulary.

Variable Buffer_from_base64 : string -> bytes.
Variable decodeJpg decodePng : bytes -> option (Q * Q).

(** The drawing call a field makes on a page of the given size, if any. *)
Definition field_op (width height : Q) (field : Field) : option DrawOp :=
  let r := field_rect field width height in
  if draws_text field then
    Some (drawText (value field) (x r) (y r + h r * 0.35)%Q 11%Q (rgb 0 0 0))
  else if draws_image field then
    match embed_value Buffer_from_base64 decodeJpg decodePng (value field) with
    | Ok img =>
        let b := image_box r img in
        Some (drawImage img (x b) (y b) (w b) (h b))
    | Throw _ => None
    end
  else None.

(** The image a field embeds, if any. *)
Definition field_image (n : nat) (field : Field) : option PDFImage :=
  if on_page n field && draws_image field then
    match embed_value Buffer_from_base64 decodeJpg decodePng (value field) with
    | Ok img => Some img
    | Throw _ => None
    end
  else None.

End LoopVocabulary.

(** ** Requests handled one after the other *)

Inductive Request :=
| Upload (file : option bytes)
| Finalize (pdfId : string) (fields : list Field).

Section Serving.

Variable BASE_URL : string.
Variable sha256 : bytes -> string.
Variable PDFDocument_load : bytes -> option PDFDocument.
Variable save : PDFDocument -> bytes.
Variable Buffer_from_base64 : string -> bytes.
Variable decodeJpg decodePng : bytes -> option (Q * Q).

(** The two routes, [app.post("/upload-pdf", ...)] and
    [app.post("/finalize-pdf", ...)]. *)
Definition handle (world : World) (req : Request) : Server -> Response * Server :=
  match req with
  | Upload file => upload_pdf BASE_URL world file
  | Finalize pdfId fields =>
      finalize_pdf BASE_URL sha256 PDFDocument_load save
        Buffer_from_base64 decodeJpg decodePng world pdfId fields
  end.

(** A run of requests, each completed before the next starts, each with its
    own reading of the world. *)
Fixpoint serve (reqs : list (World * Request)) (st : Server) : Server :=
  match reqs with
  | [] => st
  | (world, req) :: rest => serve rest (handle world req st).2
  end.

End Serving.

(** Every stored audit record passes the schema. *)
Definition audits_valid (st : Server) : Prop :=
  Forall (fun a => validate a = true) (audits st).

Definition is_finalize (wr : World * Request) : bool :=
  match wr.2 with
  | Finalize _ _ => true
  | Upload _ => false
  end.


(** ** The earlier revision of the handlers (server.js, lines 236-341)

    Its field loop (lines 274-314) is the loop of the later revision, line
    for line; [render_fields] stands for both. *)

(** [Audit.create] of a document without [createdAt]: the schema's
    [default: Date.now] fills it in. *)
Definition Audit_create_default
    (world : World) (pdfId originalHash finalHash : string) : Handler unit :=
  Audit_create world
    {| pdfId := pdfId; originalHash := originalHash; finalHash := finalHash;
       createdAt := Date_now world |}.

Section EarlierHandlers.

Variable sha256 : bytes -> string.
Variable PDFDocument_load : bytes -> option PDFDocument.
Variable save : PDFDocument -> bytes.
Variable Buffer_from_base64 : string -> bytes.
Variable decodeJpg decodePng : bytes -> option (Q * Q).

Definition upload_pdf_rev0 (world : World) (file : option bytes)
  : Server -> Response * Server :=
  try_catch
    match file with
    | None => ret (Json400 "No file uploaded")
    | Some buffer =>
        let pdfId := pretty (Date_now world) in
        _ <~ writeFileSync world (original_path pdfId) buffer ;;
        ret (Json200_upload pdfId
               ("http://localhost:5000/files/original/" +:+ pdfId +:+ ".pdf"))
    end
    (fun _ => Json500 "PDF upload failed").

Definition finalize_pdf_rev0 (world : World) (pdfId : string) (fields : list Field)
  : Server -> Response * Server :=
  try_catch
    (found <~ existsSync (original_path pdfId) ;;
     if negb found then ret (Json404 "PDF not found") else
     originalBytes <~ readFileSync (original_path pdfId) ;;
     let originalHash := sha256 originalBytes in
     pdfDoc <~ lift (load PDFDocument_load originalBytes) ;;
     pdfDoc <~ lift (render_fields Buffer_from_base64 decodeJpg decodePng
                       pdfDoc fields) ;;
     let finalPdf := save pdfDoc in
     let finalHash := sha256 finalPdf in
     _ <~ writeFileSync world (signed_path pdfId) finalPdf ;;
     _ <~ Audit_create_default world pdfId originalHash finalHash ;;
     ret (Json200_final
            ("http://localhost:5000/files/signed/" +:+ pdfId +:+ "-final.pdf")
            originalHash finalHash))
    (fun _ => Json500 "PDF finalization failed").

End EarlierHandlers.

(** ** More sample data *)



Definition later_world : World :=
  {| Date_now := 1700000000001; fs_write_ok := true; db_write_ok := true |}.

Definition db_down_world : World :=
  {| Date_now := 1700000000000; fs_write_ok := true; db_write_ok := false |}.

(** * Geometry *)

(** On doubles, with the ratios 0.1, 0.1, 0.3, 0.05 read as the nearest
    doubles, the sample rectangle has the doubles nearest to 61.2, 183.6 and
    39.6 for [x], [w] and [h], and for [y] the double just below the one
    nearest to 673.2 (printed 673.1999999999999): rounding moves [y] by one
    unit in the last place. *)
Remark binary64_sample_rect :
  Binary64.field_rect 0x1.999999999999ap-4 0x1.999999999999ap-4
    0x1.3333333333333p-2 0x1.999999999999ap-5 612 792
  = (0x1.e99999999999ap+5, 0x1.5099999999999p+9,
     0x1.6f33333333333p+7, 0x1.3cccccccccccdp+5)%float
  /\ PrimFloat.next_up 0x1.5099999999999p+9 = 0x1.509999999999ap+9%float.
Proof. split; vm_compute; reflexivity. Qed.



(** * Signature placement *)







(** * Data URIs *)

Lemma append_cons (c : ascii) (s t : string) :
  String c s +:+ t = String c (s +:+ t).
Proof. reflexivity. Qed.

Lemma append_nil (t : string) : "" +:+ t = t.
Proof. reflexivity. Qed.

Lemma strip_prefix_app (p s : string) : strip_prefix p (p +:+ s) = Some s.
Proof.
  induction p as [|a p IH]; [reflexivity|].
  rewrite append_cons. cbn [strip_prefix].
  rewrite Ascii.eqb_refl. exact IH.
Qed.

Lemma strip_prefix_Some (p s r : string) :
  strip_prefix p s = Some r -> s = p +:+ r.
Proof.
  revert s. induction p as [|a p IH]; intros s; cbn [strip_prefix].
  - intros [= ->]. reflexivity.
  - destruct s as [|b s]; [discriminate|].
    destruct (Ascii.eqb_spec a b) as [->|]; [|discriminate].
    intros H. rewrite (IH _ H). reflexivity.
Qed.

Lemma drop_word_app (m s : string) :
  all_word m = true -> drop_word (m +:+ s) = drop_word s.
Proof.
  induction m as [|c m IH]; [reflexivity|].
  rewrite append_cons. cbn [all_word drop_word].
  intros [Hc Hm]%andb_true_iff. rewrite Hc. auto.
Qed.

(** What [drop_word] drops is a run of word characters. *)
Lemma drop_word_split (s : string) :
  exists m, all_word m = true /\ s = m +:+ drop_word s.
Proof.
  induction s as [|c s (m & Hm & E)].
  - exists "". split; reflexivity.
  - cbn [drop_word]. destruct (is_word_char c) eqn:Hc.
    + exists (String c m). cbn [all_word]. rewrite Hc, Hm.
      split; [reflexivity|]. rewrite append_cons. f_equal. exact E.
    + exists "". split; reflexivity.
Qed.

Lemma includes_unfold (needle s : string) :
  includes needle s =
  match strip_prefix needle s with
  | Some _ => true
  | None => match s with
            | String _ s' => includes needle s'
            | EmptyString => false
            end
  end.
Proof. destruct s; reflexivity. Qed.

Lemma includes_spec (needle s : string) :
  includes needle s = true <-> exists pre post, s = pre +:+ needle +:+ post.
Proof.
  split.
  - induction s as [|c s IH]; rewrite includes_unfold.
    + destruct (strip_prefix needle "") eqn:E; [|discriminate].
      intros _. exists "", s. apply strip_prefix_Some in E. exact E.
    + destruct (strip_prefix needle (String c s)) eqn:E.
      * intros _. exists "", s0. apply strip_prefix_Some in E. exact E.
      * intros (pre & post & ->)%IH. exists (String c pre), post. reflexivity.
  - intros (pre & post & ->). induction pre as [|c pre IH].
    + rewrite includes_unfold, append_nil, strip_prefix_app. reflexivity.
    + rewrite includes_unfold, append_cons.
      destruct (strip_prefix needle _); [reflexivity | exact IH].
Qed.

Lemma strip_data_uri_match (mime payload : string) :
  mime <> "" -> all_word mime = true ->
  strip_data_uri ("data:image/" +:+ mime +:+ ";base64," +:+ payload) = payload.
Proof.
  intros Hne Hm. unfold strip_data_uri. rewrite strip_prefix_app.
  destruct mime as [|c mime]; [congruence|].
  rewrite append_cons. cbn [all_word] in Hm.
  apply andb_true_iff in Hm as [Hc Hm].
  rewrite Hc. cbn [drop_word]. rewrite Hc, (drop_word_app _ _ Hm).
  reflexivity.
Qed.

Lemma strip_data_uri_no_match (value : string) :
  (forall mime payload,
      mime <> "" -> all_word mime = true ->
      value <> "data:image/" +:+ mime +:+ ";base64," +:+ payload) ->
  strip_data_uri value = value.
Proof.
  intros Hno. unfold strip_data_uri.
  destruct (strip_prefix "data:image/" value) as [rest|] eqn:E1; [|reflexivity].
  destruct rest as [|c rest]; [reflexivity|].
  destruct (is_word_char c) eqn:Hc; [|reflexivity].
  destruct (strip_prefix ";base64," (drop_word (String c rest))) as [payload|] eqn:E2;
    [|reflexivity].
  exfalso. apply strip_prefix_Some in E1, E2.
  destruct (drop_word_split (String c rest)) as (m & Hm & E3).
  apply (Hno m payload).
  - intros ->. rewrite append_nil in E3. rewrite <- E3 in E2.
    injection E2 as -> _. discriminate Hc.
  - exact Hm.
  - rewrite E1, E3, E2. reflexivity.
Qed.

(** * The field loop *)

Section Rendering.

Variable Buffer_from_base64 : string -> bytes.
Variable decodeJpg decodePng : bytes -> option (Q * Q).

Local Abbreviation embed_value := (embed_value Buffer_from_base64 decodeJpg decodePng).
Local Abbreviation render_field := (render_field Buffer_from_base64 decodeJpg decodePng).
Local Abbreviation render_fields := (render_fields Buffer_from_base64 decodeJpg decodePng).

Lemma truthy_true (s : string) : s <> "" -> truthy s = true.
Proof. destruct s; [congruence | reflexivity]. Qed.

Lemma page_at_length (ps qs : list PDFPage) (n : Z) :
  length ps = length qs -> page_at ps n = None -> page_at qs n = None.
Proof.
  unfold page_at. intros Hlen. destruct (n <? 0); [reflexivity|].
  rewrite !lookup_ge_None, Hlen. auto.
Qed.

Lemma draw_on_length (doc : PDFDocument) (n : Z) (op : DrawOp) :
  length (pages (draw_on doc n op)) = length (pages doc).
Proof. apply length_alter. Qed.

Lemma render_field_skip (doc : PDFDocument) (field : Field) :
  page_at (pages doc) (page field - 1) = None ->
  render_field doc field = Ok doc.
Proof. intros H. unfold render_field. rewrite H. reflexivity. Qed.


Lemma render_field_signature (doc : PDFDocument) (field : Field) (pg : PDFPage) :
  page_at (pages doc) (page field - 1) = Some pg ->
  type field = "signature" -> value field <> "" ->
  render_field doc field =
  let* img := embed_value (value field) in
  let b := image_box (field_rect field (width pg) (height pg)) img in
  Ok (draw_on (embed doc img) (page field - 1)
        (drawImage img (x b) (y b) (w b) (h b))).
Proof.
  intros Hpg Ht Hv. unfold render_field. rewrite Hpg, Ht.
  rewrite (truthy_true _ Hv). reflexivity.
Qed.

Lemma render_field_unknown (doc : PDFDocument) (field : Field) :
  ~ known_type (type field) -> render_field doc field = Ok doc.
Proof.
  intros Hk. unfold render_field.
  destruct (page_at (pages doc) (page field - 1)); [|reflexivity].
  destruct (String.eqb_spec (type field) "text") as [E|_];
    [exfalso; apply Hk; left; exact E|].
  destruct (String.eqb_spec (type field) "date") as [E|_];
    [exfalso; apply Hk; right; left; exact E|].
  destruct (String.eqb_spec (type field) "signature") as [E|_];
    [exfalso; apply Hk; right; right; exact E|].
  reflexivity.
Qed.

(** Rendering never adds or removes a page. *)
Lemma render_field_length (doc doc' : PDFDocument) (field : Field) :
  render_field doc field = Ok doc' ->
  length (pages doc') = length (pages doc).
Proof.
  unfold render_field.
  destruct (page_at (pages doc) (page field - 1)); [|intros [= <-]; reflexivity].
  cbv zeta.
  destruct ((String.eqb (type field) "text" || String.eqb (type field) "date")
            && truthy (value field));
    destruct (String.eqb (type field) "signature" && truthy (value field));
    try (intros [= <-]; rewrite ?draw_on_length; reflexivity);
    match goal with |- context [bind ?r _] => destruct r end; cbn [bind];
    try discriminate; intros [= <-]; unfold draw_on, embed; cbn [pages];
    rewrite !length_alter; reflexivity.
Qed.

Lemma render_fields_app (doc : PDFDocument) (pre post : list Field) :
  render_fields doc (pre ++ post) =
  let* doc' := render_fields doc pre in render_fields doc' post.
Proof.
  revert doc. induction pre as [|f pre IH]; intros doc; cbn; [reflexivity|].
  destruct (render_field doc f); cbn; [apply IH | reflexivity].
Qed.

Lemma render_fields_length (doc doc' : PDFDocument) (fields : list Field) :
  render_fields doc fields = Ok doc' ->
  length (pages doc') = length (pages doc).
Proof.
  revert doc. induction fields as [|f fields IH]; intros doc; cbn.
  - intros [= <-]. reflexivity.
  - destruct (render_field doc f) as [doc1|] eqn:E; cbn; [|discriminate].
    intros H. rewrite (IH _ H). exact (render_field_length _ _ _ E).
Qed.

(** A field that leaves every document of this page count as it is can be
    taken out of the list. *)
Lemma render_fields_drop (doc : PDFDocument) (pre post : list Field) (field : Field) :
  (forall d, length (pages d) = length (pages doc) -> render_field d field = Ok d) ->
  render_fields doc (pre ++ field :: post) = render_fields doc (pre ++ post).
Proof.
  intros Hskip. rewrite !render_fields_app.
  destruct (render_fields doc pre) as [doc1|] eqn:E; cbn; [|reflexivity].
  rewrite (Hskip doc1 (render_fields_length _ _ _ E)). reflexivity.
Qed.

Lemma page_at_nonneg (ps : list PDFPage) (n : Z) (pg : PDFPage) :
  page_at ps n = Some pg -> 0 <= n /\ ps !! Z.to_nat n = Some pg.
Proof.
  unfold page_at. destruct (Z.ltb_spec n 0); [discriminate|]. auto.
Qed.





(** C5: for a signature field with a non-empty value the bytes embedded are
    the base64 decoding of the value without its [data:image/<mime>;base64,]
    prefix (of the whole value when it has no such prefix); they are embedded
    as JPEG when "jpeg" occurs anywhere in the original value and as PNG
    otherwise. *)
Theorem signature_decode_dispatch :
  (forall mime payload : string,
      mime <> "" -> all_word mime = true ->
      strip_data_uri ("data:image/" +:+ mime +:+ ";base64," +:+ payload) = payload)
  /\ (forall value : string,
         (forall mime payload,
             mime <> "" -> all_word mime = true ->
             value <> "data:image/" +:+ mime +:+ ";base64," +:+ payload) ->
         strip_data_uri value = value)
  /\ (forall value : string,
         includes "jpeg" value = true <->
         exists pre post, value = pre +:+ "jpeg" +:+ post)
  /\ (forall value : string,
         let imgBytes := Buffer_from_base64 (strip_data_uri value) in
         (includes "jpeg" value = true ->
          embed_value value = embedJpg decodeJpg imgBytes)
         /\ (includes "jpeg" value = false ->
             embed_value value = embedPng decodePng imgBytes))
  /\ (forall (doc : PDFDocument) (field : Field) (pg : PDFPage),
         page_at (pages doc) (page field - 1) = Some pg ->
         type field = "signature" -> value field <> "" ->
         render_field doc field =
         let* img := embed_value (value field) in
         let b := image_box (field_rect field (width pg) (height pg)) img in
         Ok (draw_on (embed doc img) (page field - 1)
               (drawImage img (x b) (y b) (w b) (h b)))).
Proof.
  split; [exact strip_data_uri_match|].
  split; [exact strip_data_uri_no_match|].
  split; [intros value; apply includes_spec|].
  split; [|exact render_field_signature].
  intros value imgBytes. unfold embed_value.
  split; intros ->; reflexivity.
Qed.

End Rendering.

(** * The handlers *)

Section Finalisation.

Variable BASE_URL : string.
Variable sha256 : bytes -> string.
Variable PDFDocument_load : bytes -> option PDFDocument.
Variable save : PDFDocument -> bytes.
Variable Buffer_from_base64 : string -> bytes.
Variable decodeJpg decodePng : bytes -> option (Q * Q).

Local Abbreviation embed_value := (embed_value Buffer_from_base64 decodeJpg decodePng).
Local Abbreviation render_field := (render_field Buffer_from_base64 decodeJpg decodePng).
Local Abbreviation render_fields := (render_fields Buffer_from_base64 decodeJpg decodePng).
Local Abbreviation upload_pdf := (upload_pdf BASE_URL).
Local Abbreviation finalize_pdf :=
  (finalize_pdf BASE_URL sha256 PDFDocument_load save
     Buffer_from_base64 decodeJpg decodePng).

(** The handler, step by step. *)
Lemma finalize_pdf_unfold
    (world : World) (id : string) (fields : list Field) (st : Server) :
  finalize_pdf world id fields st =
  match files st !! original_path id with
  | None => (Json404 "PDF not found", st)
  | Some originalBytes =>
      match PDFDocument_load originalBytes with
      | None => (Json500 "PDF finalization failed", st)
      | Some pdfDoc =>
          match render_fields pdfDoc fields with
          | Throw _ => (Json500 "PDF finalization failed", st)
          | Ok pdfDoc' =>
              let finalPdf := save pdfDoc' in
              let a := {| pdfId := id;
                          originalHash := sha256 originalBytes;
                          finalHash := sha256 finalPdf;
                          createdAt := Date_now world |} in
              let files' := <[signed_path id := finalPdf]> (files st) in
              if fs_write_ok world then
                if validate a && db_write_ok world then
                  (Json200_final
                     (BASE_URL +:+ "/files/signed/" +:+ id +:+ "-final.pdf")
                     (sha256 originalBytes) (sha256 finalPdf),
                   {| files := files'; audits := audits st ++ [a] |})
                else
                  (Json500 "PDF finalization failed",
                   {| files := files'; audits := audits st |})
              else (Json500 "PDF finalization failed", st)
          end
      end
  end.
Proof.
  unfold finalize_pdf, try_catch, and_then, existsSync,
    readFileSync, lift, load.
  destruct (files st !! original_path id) as [originalBytes|] eqn:Hf; cbn.
  2: reflexivity.
  rewrite Hf.
  destruct (PDFDocument_load originalBytes) as [pdfDoc|]; [|reflexivity].
  destruct (render_fields pdfDoc fields) as [pdfDoc'|]; [|reflexivity].
  unfold writeFileSync, Audit_create, ret.
  destruct (fs_write_ok world); [|reflexivity].
  cbn [files audits].
  destruct (validate _ && db_write_ok world); reflexivity.
Qed.

Lemma upload_pdf_unfold (world : World) (file : option bytes) (st : Server) :
  upload_pdf world file st =
  match file with
  | None => (Json400 "No PDF uploaded", st)
  | Some buffer =>
      let id := pretty (Date_now world) in
      if fs_write_ok world then
        (Json200_upload id (BASE_URL +:+ "/files/original/" +:+ id +:+ ".pdf"),
         {| files := <[original_path id := buffer]> (files st);
            audits := audits st |})
      else (Json500 "PDF upload failed", st)
  end.
Proof.
  unfold upload_pdf, try_catch, and_then, writeFileSync, ret.
  destruct file; [|reflexivity]. destruct (fs_write_ok world); reflexivity.
Qed.

(** The handler sees the field list only through the loop. *)
Lemma finalize_pdf_ext
    (world : World) (id : string) (fields1 fields2 : list Field) (st : Server) :
  (forall originalBytes pdfDoc,
      files st !! original_path id = Some originalBytes ->
      PDFDocument_load originalBytes = Some pdfDoc ->
      render_fields pdfDoc fields1 = render_fields pdfDoc fields2) ->
  finalize_pdf world id fields1 st = finalize_pdf world id fields2 st.
Proof.
  intros Hsame. rewrite !finalize_pdf_unfold.
  destruct (files st !! original_path id) as [originalBytes|]; [|reflexivity].
  destruct (PDFDocument_load originalBytes) as [pdfDoc|] eqn:Hl; [|reflexivity].
  rewrite (Hsame _ _ eq_refl Hl). reflexivity.
Qed.

Lemma signed_path_not_original (id id' : string) :
  signed_path id <> original_path id'.
Proof. unfold signed_path, original_path. discriminate. Qed.

Lemma page_at_is_Some_length (ps qs : list PDFPage) (n : Z) :
  length ps = length qs -> is_Some (page_at ps n) -> is_Some (page_at qs n).
Proof.
  unfold page_at. intros Hlen. destruct (n <? 0); [auto|].
  rewrite !lookup_lt_is_Some, Hlen. auto.
Qed.

(** One undecodable signature anywhere in the list makes the loop throw. *)
Lemma render_fields_throw
    (pdfDoc : PDFDocument) (pre post : list Field) (field : Field) (e : Exn) :
  is_Some (page_at (pages pdfDoc) (page field - 1)) ->
  type field = "signature" -> value field <> "" ->
  embed_value (value field) = Throw e ->
  exists e', render_fields pdfDoc (pre ++ field :: post) = Throw e'.
Proof.
  intros Hpg Ht Hv He. rewrite render_fields_app.
  destruct (render_fields pdfDoc pre) as [doc1|e1] eqn:Hpre; cbn [bind].
  2: exists e1; reflexivity.
  apply render_fields_length in Hpre.
  destruct (page_at_is_Some_length _ (pages doc1) _ (eq_sym Hpre) Hpg) as [pg1 Hpg1].
  exists e. change (render_fields doc1 (field :: post))
    with (let* d := render_field doc1 field in render_fields d post).
  rewrite (render_field_signature _ _ _ _ _ _ Hpg1 Ht Hv), He. reflexivity.
Qed.

(** C2: when a field of the list cannot be rendered (here: a signature on an
    existing page whose image does not decode, at any position of the list),
    the loop throws, the caller gets the 500 error, and the server state is
    the one before the call: no file in [signed/] is written and no audit
    record is created. *)
Theorem finalize_fail_atomic
    (world : World) (st : Server) (id : string)
    (pre post : list Field) (field : Field)
    (originalBytes : bytes) (pdfDoc : PDFDocument) (e : Exn) :
  files st !! original_path id = Some originalBytes ->
  PDFDocument_load originalBytes = Some pdfDoc ->
  is_Some (page_at (pages pdfDoc) (page field - 1)) ->
  type field = "signature" -> value field <> "" ->
  embed_value (value field) = Throw e ->
  (exists e', render_fields pdfDoc (pre ++ field :: post) = Throw e')
  /\ (forall resp st',
         finalize_pdf world id (pre ++ field :: post) st = (resp, st') ->
         resp = Json500 "PDF finalization failed"
         /\ st' = st
         /\ files st' !! signed_path id = files st !! signed_path id
         /\ audits st' = audits st).
Proof.
  intros Hf Hl Hpg Ht Hv He.
  destruct (render_fields_throw pdfDoc pre post field e Hpg Ht Hv He) as [e' Hthrow].
  split; [exists e'; exact Hthrow|].
  intros resp st'. rewrite finalize_pdf_unfold, Hf, Hl, Hthrow.
  intros [= <- <-]. auto.
Qed.

(** C4: a field whose page index has no page in the document is skipped:
    the loop body returns the document as it got it, without error, the loop
    over the whole list goes on as if the field were not in it, and so does
    the handler. *)
Theorem out_of_range_field_skipped
    (world : World) (st : Server) (id : string)
    (pre post : list Field) (field : Field)
    (originalBytes : bytes) (pdfDoc : PDFDocument) :
  files st !! original_path id = Some originalBytes ->
  PDFDocument_load originalBytes = Some pdfDoc ->
  page_at (pages pdfDoc) (page field - 1) = None ->
  render_field pdfDoc field = Ok pdfDoc
  /\ render_fields pdfDoc (pre ++ field :: post) = render_fields pdfDoc (pre ++ post)
  /\ finalize_pdf world id (pre ++ field :: post) st
     = finalize_pdf world id (pre ++ post) st.
Proof.
  intros Hf Hl Hnone.
  assert (Hdrop : render_fields pdfDoc (pre ++ field :: post)
                  = render_fields pdfDoc (pre ++ post)).
  { apply render_fields_drop. intros d Hlen.
    apply render_field_skip. eapply page_at_length; [symmetry|]; eassumption. }
  split; [apply render_field_skip, Hnone|]. split; [exact Hdrop|].
  apply finalize_pdf_ext. intros b d Hb Hd.
  rewrite Hf in Hb. injection Hb as <-. rewrite Hl in Hd. injection Hd as <-.
  exact Hdrop.
Qed.

(** C10: a field whose type is none of "text", "date" and "signature"
    leaves the document as it is and raises no error; the loop over the
    whole list, and the handler, go on as if the field were not in it. *)
Theorem unknown_type_field_ignored
    (world : World) (st : Server) (id : string)
    (pdfDoc : PDFDocument) (pre post : list Field) (field : Field) :
  type field <> "text" -> type field <> "date" -> type field <> "signature" ->
  render_field pdfDoc field = Ok pdfDoc
  /\ render_fields pdfDoc (pre ++ field :: post) = render_fields pdfDoc (pre ++ post)
  /\ finalize_pdf world id (pre ++ field :: post) st
     = finalize_pdf world id (pre ++ post) st.
Proof.
  intros H1 H2 H3.
  assert (Hk : ~ known_type (type field)) by (intros [?|[?|?]]; contradiction).
  split; [apply render_field_unknown, Hk|].
  split.
  - apply render_fields_drop. intros d _. apply render_field_unknown, Hk.
  - apply finalize_pdf_ext. intros b d _ _.
    apply render_fields_drop. intros d' _. apply render_field_unknown, Hk.
Qed.




(** The loop is the last step that can fail without a trace: when the file
    is written and [Audit.create] then rejects, the caller gets the 500
    answer while the finalized file stays in [signed/] without a record. *)
Remark finalize_pdf_audit_rejected
    (world : World) (id : string) (fields : list Field) (st : Server)
    (originalBytes : bytes) (pdfDoc pdfDoc' : PDFDocument) :
  files st !! original_path id = Some originalBytes ->
  PDFDocument_load originalBytes = Some pdfDoc ->
  render_fields pdfDoc fields = Ok pdfDoc' ->
  fs_write_ok world = true -> db_write_ok world = false ->
  finalize_pdf world id fields st
  = (Json500 "PDF finalization failed",
     {| files := <[signed_path id := save pdfDoc']> (files st);
        audits := audits st |}).
Proof.
  intros Hf Hl Hr Hfs Hdb. rewrite finalize_pdf_unfold, Hf, Hl, Hr. cbv zeta.
  rewrite Hfs, Hdb, andb_false_r. reflexivity.
Qed.

(** Two uploads at one clock reading get one identifier, and the second
    replaces the bytes of the first. *)
Lemma upload_pdf_same_clock
    (world1 world2 : World) (st : Server) (buffer1 buffer2 : bytes) :
  Date_now world1 = Date_now world2 ->
  fs_write_ok world1 = true -> fs_write_ok world2 = true ->
  exists id url st1 st2,
    upload_pdf world1 (Some buffer1) st = (Json200_upload id url, st1)
    /\ upload_pdf world2 (Some buffer2) st1 = (Json200_upload id url, st2)
    /\ files st1 !! original_path id = Some buffer1
    /\ files st2 !! original_path id = Some buffer2.
Proof.
  intros Hclock Hw1 Hw2.
  eexists _, _, _, _. rewrite upload_pdf_unfold. cbv zeta. rewrite Hw1.
  split; [reflexivity|]. rewrite upload_pdf_unfold. cbv zeta.
  rewrite Hw2, <- Hclock. split; [reflexivity|].
  cbn [files]. split; apply lookup_insert_eq.
Qed.

(** Uploads at different clock readings get different identifiers. *)
Lemma upload_pdf_distinct_clock
    (world1 world2 : World) (st1 st2 st1' st2' : Server)
    (file1 file2 : option bytes) (id1 id2 url1 url2 : string) :
  upload_pdf world1 file1 st1 = (Json200_upload id1 url1, st1') ->
  upload_pdf world2 file2 st2 = (Json200_upload id2 url2, st2') ->
  Date_now world1 <> Date_now world2 ->
  id1 <> id2.
Proof.
  rewrite !upload_pdf_unfold. cbv zeta.
  destruct file1, file2; try discriminate.
  destruct (fs_write_ok world1), (fs_write_ok world2); try discriminate.
  intros [= <- _ _] [= <- _ _] Hne Heq. apply Hne.
  exact (pretty_Z_inj _ _ Heq).
Qed.

(** An upload stores the bytes under [original/{pdfId}.pdf] and returns the
    identifier. *)
Lemma upload_pdf_stores
    (world : World) (st st' : Server) (buffer : bytes) (id url : string) :
  upload_pdf world (Some buffer) st = (Json200_upload id url, st') ->
  id = pretty (Date_now world)
  /\ files st' !! original_path id = Some buffer.
Proof.
  rewrite upload_pdf_unfold. cbv zeta.
  destruct (fs_write_ok world); [|discriminate].
  intros [= <- _ <-]. split; [reflexivity | apply lookup_insert_eq].
Qed.

End Finalisation.

(** * The statements on sample data *)

Lemma sample_server_lookup :
  files sample_server !! original_path "1" = Some [].
Proof. apply lookup_singleton_eq. Qed.



Lemma signature_decode_dispatch_witness :
  strip_data_uri "data:image/png;base64,iVBORw0KGgo=" = "iVBORw0KGgo="
  /\ includes "jpeg" "data:image/jpeg;base64,/9j/4AAQ" = true.
Proof.
  destruct (signature_decode_dispatch sample_base64 no_decode no_decode)
    as (Hstrip & _ & Hinc & _).
  split.
  - apply (Hstrip "png" "iVBORw0KGgo="); [discriminate | reflexivity].
  - apply Hinc. exists "data:image/", ";base64,/9j/4AAQ". reflexivity.
Defined.

Lemma finalize_fail_atomic_witness :
  finalize_pdf sample_base sample_sha256 sample_load sample_save
    sample_base64 no_decode no_decode sample_world "1"
    ([sample_field "text" "Hello"]
       ++ sample_field "signature" "data:image/png;base64,AAAA"
       :: [sample_field "date" "2024-01-01"])
    sample_server
  = (Json500 "PDF finalization failed", sample_server).
Proof.
  destruct (finalize_fail_atomic sample_base sample_sha256 sample_load sample_save
              sample_base64 no_decode no_decode sample_world sample_server "1"
              [sample_field "text" "Hello"] [sample_field "date" "2024-01-01"]
              (sample_field "signature" "data:image/png;base64,AAAA")
              [] blank_doc (EmbedFailed Png))
    as [_ Hatomic].
  - exact sample_server_lookup.
  - reflexivity.
  - eexists. reflexivity.
  - reflexivity.
  - discriminate.
  - reflexivity.
  - destruct (Hatomic _ _ (surjective_pairing _)) as (Hr & Hs & _).
    rewrite (surjective_pairing (finalize_pdf _ _ _ _ _ _ _ _ _ _ _)), Hr, Hs.
    reflexivity.
Defined.

Lemma out_of_range_field_skipped_witness :
  finalize_pdf sample_base sample_sha256 sample_load sample_save
    sample_base64 no_decode no_decode sample_world "1"
    ([sample_field "text" "Hello"]
       ++ {| page := 5; type := "text"; value := "lost";
             xRatio := 0; yRatio := 0; wRatio := 1; hRatio := 1 |}
       :: [sample_field "date" "2024-01-01"])
    sample_server
  = finalize_pdf sample_base sample_sha256 sample_load sample_save
      sample_base64 no_decode no_decode sample_world "1"
      ([sample_field "text" "Hello"] ++ [sample_field "date" "2024-01-01"])
      sample_server.
Proof.
  apply (out_of_range_field_skipped sample_base sample_sha256 sample_load sample_save
           sample_base64 no_decode no_decode sample_world sample_server "1"
           _ _ _ [] blank_doc).
  - exact sample_server_lookup.
  - reflexivity.
  - reflexivity.
Defined.

Lemma unknown_type_field_ignored_witness :
  render_field sample_base64 no_decode no_decode blank_doc
    (sample_field "checkbox" "on") = Ok blank_doc.
Proof.
  apply (unknown_type_field_ignored sample_base sample_sha256 sample_load sample_save
           sample_base64 no_decode no_decode sample_world sample_server "1"
           blank_doc [] []);
    discriminate.
Defined.

Lemma sample_finalize :
  finalize_pdf sample_base sample_sha256 sample_load sample_save
    sample_base64 no_decode no_decode sample_world "1"
    [sample_field "text" "Hello"] sample_server
  = (Json200_final "http://localhost:5000/files/signed/1-final.pdf"
       "e3b0c44298fc1c14" "e3b0c44298fc1c14",
     {| files := <[signed_path "1" := []]> (files sample_server);
        audits := [ {| pdfId := "1"; originalHash := "e3b0c44298fc1c14";
                       finalHash := "e3b0c44298fc1c14";
                       createdAt := 1700000000000 |} ] |}).
Proof.
  rewrite finalize_pdf_unfold, sample_server_lookup. reflexivity.
Qed.


(** C9 fails on the code: two uploads that read the same clock value get the
    same identifier, both are answered with it, and the bytes of the first
    are replaced by those of the second. *)
Theorem upload_pdf_id_collision (BASE_URL : string) :
  exists st1 st2,
    upload_pdf BASE_URL sample_world (Some [Byte.x01]) empty_server
    = (Json200_upload "1700000000000"
         (BASE_URL +:+ "/files/original/1700000000000.pdf"), st1)
    /\ upload_pdf BASE_URL sample_world (Some [Byte.x02]) st1
       = (Json200_upload "1700000000000"
            (BASE_URL +:+ "/files/original/1700000000000.pdf"), st2)
    /\ files st1 !! original_path "1700000000000" = Some [Byte.x01]
    /\ files st2 !! original_path "1700000000000" = Some [Byte.x02].
Proof.
  destruct (upload_pdf_same_clock BASE_URL sample_world sample_world empty_server
              [Byte.x01] [Byte.x02] eq_refl eq_refl eq_refl)
    as (id & url & st1 & st2 & H1 & H2 & Hf1 & Hf2).
  destruct (upload_pdf_stores _ _ _ _ _ _ _ H1) as [Hid _].
  assert (Hurl : url = BASE_URL +:+ "/files/original/1700000000000.pdf").
  { rewrite upload_pdf_unfold in H1. cbv zeta in H1. cbn [fs_write_ok sample_world] in H1.
    injection H1 as _ <- _. reflexivity. }
  assert (Hid' : id = "1700000000000") by (rewrite Hid; reflexivity).
  subst id url. exists st1, st2. auto.
Qed.

(** * Further properties of the geometry *)









(** * Further properties of the field loop *)

Section LoopProperties.

Variable Buffer_from_base64 : string -> bytes.
Variable decodeJpg decodePng : bytes -> option (Q * Q).

Local Abbreviation embed_value := (embed_value Buffer_from_base64 decodeJpg decodePng).
Local Abbreviation render_field := (render_field Buffer_from_base64 decodeJpg decodePng).
Local Abbreviation render_fields := (render_fields Buffer_from_base64 decodeJpg decodePng).
Local Abbreviation field_op := (field_op Buffer_from_base64 decodeJpg decodePng).
Local Abbreviation field_image := (field_image Buffer_from_base64 decodeJpg decodePng).

Lemma page_at_None_on_page (ps : list PDFPage) (field : Field) :
  page_at ps (page field - 1) = None <-> on_page (length ps) field = false.
Proof.
  unfold page_at, on_page.
  destruct (Z.ltb_spec (page field - 1) 0) as [Hneg|Hpos].
  - destruct (Z.leb_spec 0 (page field - 1)); [lia|]. tauto.
  - destruct (Z.leb_spec 0 (page field - 1)); [|lia]. cbn [andb].
    rewrite lookup_ge_None.
    destruct (Z.ltb_spec (page field - 1) (Z.of_nat (length ps)));
      split; intros; try lia; try discriminate; reflexivity.
Qed.

Lemma page_at_Some_on_page (ps : list PDFPage) (field : Field) (pg : PDFPage) :
  page_at ps (page field - 1) = Some pg -> on_page (length ps) field = true.
Proof.
  intros H. destruct (on_page (length ps) field) eqn:E; [reflexivity|].
  apply page_at_None_on_page in E. congruence.
Qed.

Lemma draws_exclusive (field : Field) :
  draws_text field = true -> draws_image field = false.
Proof.
  unfold draws_text, draws_image.
  destruct (String.eqb_spec (type field) "text") as [->|_]; [reflexivity|].
  destruct (String.eqb_spec (type field) "date") as [->|_]; [reflexivity|].
  discriminate.
Qed.

(** The loop body by cases on its guards. *)
Lemma render_field_cases (doc : PDFDocument) (field : Field) :
  render_field doc field =
  match page_at (pages doc) (page field - 1) with
  | None => Ok doc
  | Some pg =>
      let r := field_rect field (width pg) (height pg) in
      if draws_text field then
        Ok (draw_on doc (page field - 1)
              (drawText (value field) (x r) (y r + h r * 0.35)%Q 11%Q (rgb 0 0 0)))
      else if draws_image field then
        let* img := embed_value (value field) in
        let b := image_box r img in
        Ok (draw_on (embed doc img) (page field - 1)
              (drawImage img (x b) (y b) (w b) (h b)))
      else Ok doc
  end.
Proof.
  unfold render_field.
  destruct (page_at (pages doc) (page field - 1)) as [pg|]; [|reflexivity].
  cbv zeta. fold (draws_text field). fold (draws_image field).
  destruct (draws_text field) eqn:Ht.
  - rewrite (draws_exclusive _ Ht). reflexivity.
  - reflexivity.
Qed.

(** What the loop body does to the page of index [i] and to the embedded
    images. *)
Lemma render_field_effect (doc doc' : PDFDocument) (field : Field) :
  render_field doc field = Ok doc' ->
  (forall (i : nat) (pg : PDFPage),
      pages doc !! i = Some pg ->
      pages doc' !! i
      = Some {| width := width pg; height := height pg;
                content := content pg
                  ++ (if targets i field
                      then option_list (field_op (width pg) (height pg) field)
                      else []) |})
  /\ embedded doc'
     = (embedded doc ++ option_list (field_image (length (pages doc)) field))%list.
Proof.
  rewrite render_field_cases. unfold field_image, field_op.
  destruct (page_at (pages doc) (page field - 1)) as [pg0|] eqn:Hpg.
  2: { intros [= <-]. apply page_at_None_on_page in Hpg. rewrite Hpg.
       cbn [andb option_list]. rewrite app_nil_r. split; [|reflexivity].
       intros i pg Hi. unfold targets.
       destruct (Z.leb_spec 0 (page field - 1)) as [Hnn|]; cbn [andb].
       - destruct (Nat.eqb_spec (Z.to_nat (page field - 1)) i) as [<-|_].
         + exfalso. unfold on_page in Hpg.
           apply lookup_lt_Some in Hi.
           destruct (Z.leb_spec 0 (page field - 1)); [|lia].
           destruct (Z.ltb_spec (page field - 1) (Z.of_nat (length (pages doc))));
             [discriminate | lia].
         + rewrite app_nil_r, Hi. destruct pg; reflexivity.
       - rewrite app_nil_r, Hi. destruct pg; reflexivity. }
  rewrite (page_at_Some_on_page _ _ _ Hpg). cbn [andb].
  destruct (page_at_nonneg _ _ _ Hpg) as [Hnn Hlk].
  assert (Hpage : forall (d : PDFDocument) (op : DrawOp) (i : nat) (pg : PDFPage),
             pages d = pages doc -> pages doc !! i = Some pg ->
             pages (draw_on d (page field - 1) op) !! i
             = Some {| width := width pg; height := height pg;
                       content := content pg
                         ++ (if targets i field then [op] else []) |}).
  { intros d op i pg Hd Hi. unfold draw_on, targets. cbn [pages]. rewrite Hd.
    destruct (Z.leb_spec 0 (page field - 1)); [|lia]. cbn [andb].
    destruct (Nat.eqb_spec (Z.to_nat (page field - 1)) i) as [<-|Hne].
    - rewrite list_lookup_alter_eq, Hi. reflexivity.
    - rewrite list_lookup_alter_ne, Hi by exact Hne.
      rewrite app_nil_r. destruct pg; reflexivity. }
  cbv zeta.
  destruct (draws_text field) eqn:Ht.
  - rewrite (draws_exclusive _ Ht). intros [= <-]. split.
    + intros i pg Hi. rewrite (Hpage doc _ i pg eq_refl Hi).
      assert (Hsz : targets i field = true -> pg = pg0).
      { unfold targets. destruct (Z.leb_spec 0 (page field - 1)); [|lia].
        cbn [andb]. intros <-%Nat.eqb_eq. congruence. }
      destruct (targets i field); [|reflexivity].
      rewrite (Hsz eq_refl). reflexivity.
    + cbn [option_list draw_on embedded]. rewrite app_nil_r. reflexivity.
  - destruct (draws_image field) eqn:Hi'.
    + destruct (embed_value (value field)) as [img|e]; cbn [bind]; [|discriminate].
      intros [= <-]. split.
      * intros i pg Hi. rewrite (Hpage (embed doc img) _ i pg eq_refl Hi).
        assert (Hsz : targets i field = true -> pg = pg0).
        { unfold targets. destruct (Z.leb_spec 0 (page field - 1)); [|lia].
          cbn [andb]. intros <-%Nat.eqb_eq. congruence. }
        destruct (targets i field); [|reflexivity].
        rewrite (Hsz eq_refl). reflexivity.
      * reflexivity.
    + intros [= <-]. cbn [option_list]. rewrite !app_nil_r. split; [|reflexivity].
      intros i pg Hi. rewrite Hi.
      destruct (targets i field); rewrite app_nil_r; destruct pg; reflexivity.
Qed.

(** Every page keeps its size and what was drawn on it before, and receives
    exactly the drawing calls of the fields aimed at it, in the order of the
    list; the embedded images grow by those of the signature fields, in the
    order of the list; no page is added or removed. *)
Theorem render_fields_page_content
    (doc doc' : PDFDocument) (fields : list Field) :
  render_fields doc fields = Ok doc' ->
  length (pages doc') = length (pages doc)
  /\ (forall (i : nat) (pg : PDFPage),
         pages doc !! i = Some pg ->
         pages doc' !! i
         = Some {| width := width pg; height := height pg;
                   content := content pg
                     ++ omap (field_op (width pg) (height pg))
                          (List.filter (targets i) fields) |})
  /\ embedded doc'
     = (embedded doc ++ omap (field_image (length (pages doc))) fields)%list.
Proof.
  revert doc. induction fields as [|f fields IH]; intros doc.
  - intros [= <-]. split; [reflexivity|]. split.
    + intros i pg Hi. cbn. rewrite app_nil_r, Hi. destruct pg; reflexivity.
    + cbn. rewrite app_nil_r. reflexivity.
  - change (render_fields doc (f :: fields))
      with (let* d := render_field doc f in render_fields d fields).
    destruct (render_field doc f) as [doc1|] eqn:Hf; cbn [bind]; [|discriminate].
    intros Hrest.
    destruct (render_field_effect _ _ _ Hf) as [Hpages1 Hemb1].
    pose proof (render_field_length _ _ _ _ _ _ Hf) as Hlen1.
    destruct (IH _ Hrest) as (Hlen & Hpages & Hemb).
    split; [congruence|]. split.
    + intros i pg Hi. rewrite (Hpages i _ (Hpages1 i pg Hi)).
      cbn [width height content List.filter].
      destruct (targets i f); [|rewrite app_nil_r; reflexivity].
      cbn [omap list_omap].
      destruct (field_op (width pg) (height pg) f); cbn [option_list].
      * rewrite <- app_assoc. reflexivity.
      * rewrite app_nil_r. reflexivity.
    + rewrite Hemb, Hemb1, Hlen1. cbn [omap list_omap].
      destruct (field_image (length (pages doc)) f); cbn [option_list].
      * rewrite <- app_assoc. reflexivity.
      * rewrite app_nil_r. reflexivity.
Qed.

Lemma sum_list_alter_add_op (op : DrawOp) (ps : list PDFPage) (k : nat) (pg : PDFPage) :
  ps !! k = Some pg ->
  sum_list (map (fun p => length (content p)) (alter (add_op op) k ps))
  = S (sum_list (map (fun p => length (content p)) ps)).
Proof.
  revert k. induction ps as [|p ps IH]; intros [|k]; cbn; try discriminate.
  - intros [= ->]. rewrite length_app. cbn. lia.
  - intros Hk. rewrite (IH _ Hk). lia.
Qed.

Lemma total_ops_draw_on (doc : PDFDocument) (n : Z) (op : DrawOp) (pg : PDFPage) :
  page_at (pages doc) n = Some pg ->
  total_ops (draw_on doc n op) = S (total_ops doc).
Proof.
  intros [_ Hk]%page_at_nonneg. unfold total_ops, draw_on. cbn [pages].
  apply (sum_list_alter_add_op _ _ _ _ Hk).
Qed.

(** One field, at most one drawing call. *)
Lemma render_field_count (doc doc' : PDFDocument) (field : Field) :
  render_field doc field = Ok doc' ->
  total_ops doc' = (total_ops doc
                    + if drawable (length (pages doc)) field then 1 else 0)%nat.
Proof.
  rewrite render_field_cases. unfold drawable.
  destruct (page_at (pages doc) (page field - 1)) as [pg|] eqn:Hpg.
  2: { intros [= <-]. apply page_at_None_on_page in Hpg. rewrite Hpg. cbn. lia. }
  rewrite (page_at_Some_on_page _ _ _ Hpg). cbn [andb]. cbv zeta.
  destruct (draws_text field); cbn [orb].
  - intros [= <-]. rewrite (total_ops_draw_on _ _ _ _ Hpg). lia.
  - destruct (draws_image field).
    + destruct (embed_value (value field)) as [img|]; cbn [bind]; [|discriminate].
      intros [= <-]. rewrite (total_ops_draw_on _ _ _ pg) by exact Hpg.
      unfold total_ops. cbn [embed pages]. lia.
    + intros [= <-]. lia.
Qed.

Lemma render_fields_count (doc doc' : PDFDocument) (fields : list Field) :
  render_fields doc fields = Ok doc' ->
  total_ops doc'
  = (total_ops doc + length (List.filter (drawable (length (pages doc))) fields))%nat.
Proof.
  revert doc. induction fields as [|f fields IH]; intros doc.
  - intros [= <-]. cbn. lia.
  - change (render_fields doc (f :: fields))
      with (let* d := render_field doc f in render_fields d fields).
    destruct (render_field doc f) as [doc1|] eqn:Hf; cbn [bind]; [|discriminate].
    intros Hrest. rewrite (IH _ Hrest), (render_field_count _ _ _ Hf).
    rewrite (render_field_length _ _ _ _ _ _ Hf). cbn [List.filter].
    destruct (drawable (length (pages doc)) f); cbn [length]; lia.
Qed.

(** A field that draws nothing leaves the document as it is. *)
Lemma render_field_not_drawable (doc : PDFDocument) (field : Field) :
  drawable (length (pages doc)) field = false ->
  render_field doc field = Ok doc.
Proof.
  rewrite render_field_cases. unfold drawable.
  destruct (page_at (pages doc) (page field - 1)) as [pg|] eqn:Hpg; [|reflexivity].
  rewrite (page_at_Some_on_page _ _ _ Hpg). cbn [andb]. cbv zeta.
  intros [-> ->]%orb_false_iff. reflexivity.
Qed.

(** One signature drawn, one image embedded. *)
Lemma render_field_image_count (doc doc' : PDFDocument) (field : Field) :
  render_field doc field = Ok doc' ->
  length (embedded doc')
  = (length (embedded doc)
     + if on_page (length (pages doc)) field && draws_image field then 1 else 0)%nat.
Proof.
  rewrite render_field_cases.
  destruct (page_at (pages doc) (page field - 1)) as [pg|] eqn:Hpg.
  2: { intros [= <-]. apply page_at_None_on_page in Hpg. rewrite Hpg. cbn. lia. }
  rewrite (page_at_Some_on_page _ _ _ Hpg). cbn [andb]. cbv zeta.
  destruct (draws_text field) eqn:Ht.
  - rewrite (draws_exclusive _ Ht). intros [= <-]. cbn. lia.
  - destruct (draws_image field).
    + destruct (embed_value (value field)) as [img|]; cbn [bind]; [|discriminate].
      intros [= <-]. cbn [draw_on embed embedded]. rewrite length_app. cbn. lia.
    + intros [= <-]. lia.
Qed.

(** The number of drawing calls the loop adds is the number of fields with an
    existing page that are text or date fields with a value or signature
    fields with a value; the number of images it embeds is the number of
    those signature fields. *)
Theorem render_fields_total_ops
    (doc doc' : PDFDocument) (fields : list Field) :
  render_fields doc fields = Ok doc' ->
  total_ops doc'
  = (total_ops doc + length (List.filter (drawable (length (pages doc))) fields))%nat
  /\ length (embedded doc')
     = (length (embedded doc)
        + length (List.filter
                    (fun f => on_page (length (pages doc)) f && draws_image f)
                    fields))%nat.
Proof.
  intros H. split; [exact (render_fields_count _ _ _ H)|].
  revert doc H. induction fields as [|f fields IH]; intros doc.
  - intros [= <-]. cbn. lia.
  - change (render_fields doc (f :: fields))
      with (let* d := render_field doc f in render_fields d fields).
    destruct (render_field doc f) as [doc1|] eqn:Hf; cbn [bind]; [|discriminate].
    intros Hrest. rewrite (IH _ Hrest), (render_field_image_count _ _ _ Hf).
    rewrite (render_field_length _ _ _ _ _ _ Hf). cbn [List.filter].
    destruct (on_page (length (pages doc)) f && draws_image f); cbn [length]; lia.
Qed.

(** The loop returns the document untouched exactly when no field of the
    list draws: each one has no page, an empty value, or a type other than
    text, date and signature. *)
Theorem render_fields_unchanged_iff (doc : PDFDocument) (fields : list Field) :
  render_fields doc fields = Ok doc
  <-> forallb (fun f => negb (drawable (length (pages doc)) f)) fields = true.
Proof.
  split.
  - intros H. apply render_fields_count in H.
    assert (Hz : length (List.filter (drawable (length (pages doc))) fields) = 0%nat)
      by lia.
    clear H. induction fields as [|f fields IH]; [reflexivity|].
    cbn [List.filter forallb] in *.
    destruct (drawable (length (pages doc)) f); [discriminate Hz|].
    cbn [negb andb]. exact (IH Hz).
  - induction fields as [|f fields IH]; [reflexivity|].
    cbn [forallb]. intros [Hf Hall]%andb_true_iff.
    apply negb_true_iff in Hf.
    change (render_fields doc (f :: fields))
      with (let* d := render_field doc f in render_fields d fields).
    rewrite (render_field_not_drawable _ _ Hf). cbn [bind]. exact (IH Hall).
Qed.

Lemma draw_on_comm (doc : PDFDocument) (n m : Z) (op1 op2 : DrawOp) :
  0 <= n -> 0 <= m -> n <> m ->
  draw_on (draw_on doc n op1) m op2 = draw_on (draw_on doc m op2) n op1.
Proof.
  intros Hn Hm Hne. unfold draw_on. cbn [pages embedded]. f_equal.
  apply list_alter_alter_ne. lia.
Qed.




End LoopProperties.

(** * Further properties of the handlers *)

Section HandlerProperties.

Variable BASE_URL : string.
Variable sha256 : bytes -> string.
Variable PDFDocument_load : bytes -> option PDFDocument.
Variable save : PDFDocument -> bytes.
Variable Buffer_from_base64 : string -> bytes.
Variable decodeJpg decodePng : bytes -> option (Q * Q).

Local Abbreviation render_fields := (render_fields Buffer_from_base64 decodeJpg decodePng).
Local Abbreviation upload_pdf := (upload_pdf BASE_URL).
Local Abbreviation finalize_pdf :=
  (finalize_pdf BASE_URL sha256 PDFDocument_load save
     Buffer_from_base64 decodeJpg decodePng).
Local Abbreviation finalize_pdf_unfold :=
  (finalize_pdf_unfold BASE_URL sha256 PDFDocument_load save
     Buffer_from_base64 decodeJpg decodePng).
Local Abbreviation handle :=
  (handle BASE_URL sha256 PDFDocument_load save
     Buffer_from_base64 decodeJpg decodePng).
Local Abbreviation serve :=
  (serve BASE_URL sha256 PDFDocument_load save
     Buffer_from_base64 decodeJpg decodePng).

(** The finalize handler answers 404 exactly when no original is stored
    under the identifier, and then changes nothing; an original that does
    not parse is answered with 500, again with nothing changed. *)
Theorem finalize_pdf_not_found
    (world : World) (id : string) (fields : list Field) (st : Server) :
  ((finalize_pdf world id fields st).1 = Json404 "PDF not found"
   <-> files st !! original_path id = None)
  /\ (files st !! original_path id = None ->
      (finalize_pdf world id fields st).2 = st)
  /\ (forall originalBytes,
         files st !! original_path id = Some originalBytes ->
         PDFDocument_load originalBytes = None ->
         finalize_pdf world id fields st
         = (Json500 "PDF finalization failed", st)).
Proof.
  rewrite finalize_pdf_unfold.
  destruct (files st !! original_path id) as [b|] eqn:Hf.
  - split; [|split].
    + split; [|discriminate].
      destruct (PDFDocument_load b); [|discriminate].
      destruct (render_fields _ _); [|discriminate]. cbv zeta.
      destruct (fs_write_ok world); [|discriminate].
      destruct (validate _ && db_write_ok world); discriminate.
    + discriminate.
    + intros b' [= <-] Hl. rewrite Hl. reflexivity.
  - split; [|split].
    + split; reflexivity.
    + reflexivity.
    + discriminate.
Qed.


(** What a 200 answer of finalize says is what the server holds afterwards:
    the URL names the stored finalized file, [finalHash] is the digest of
    that file, [originalHash] the digest of the stored original, and the last
    audit record carries the identifier and both digests. *)
Theorem finalize_pdf_answer_matches_storage
    (world : World) (id : string) (fields : list Field) (st st' : Server)
    (url oh fh : string) :
  finalize_pdf world id fields st = (Json200_final url oh fh, st') ->
  url = BASE_URL +:+ "/files/" +:+ signed_path id
  /\ (exists finalPdf,
         files st' !! signed_path id = Some finalPdf /\ fh = sha256 finalPdf)
  /\ (exists originalBytes,
         files st' !! original_path id = Some originalBytes
         /\ oh = sha256 originalBytes)
  /\ last (audits st')
     = Some {| pdfId := id; originalHash := oh; finalHash := fh;
               createdAt := Date_now world |}.
Proof.
  rewrite finalize_pdf_unfold.
  destruct (files st !! original_path id) as [b|] eqn:Hf; [|discriminate].
  destruct (PDFDocument_load b); [|discriminate].
  destruct (render_fields _ _) as [doc'|]; [|discriminate]. cbv zeta.
  destruct (fs_write_ok world); [|discriminate].
  destruct (validate _ && db_write_ok world); [|discriminate].
  intros [= <- <- <- <-]. cbn [files audits].
  split; [reflexivity|]. split; [|split].
  - exists (save doc'). split; [apply lookup_insert_eq | reflexivity].
  - exists b. split; [|reflexivity].
    rewrite lookup_insert_ne by apply signed_path_not_original. exact Hf.
  - apply last_snoc.
Qed.

(** The answer of finalize depends on the server only through the original
    stored under the identifier: neither the audit collection nor any other
    file is read. *)
Theorem finalize_pdf_reads_original_only
    (world : World) (id : string) (fields : list Field) (st1 st2 : Server) :
  files st1 !! original_path id = files st2 !! original_path id ->
  (finalize_pdf world id fields st1).1 = (finalize_pdf world id fields st2).1.
Proof.
  intros Hsame. rewrite !finalize_pdf_unfold, Hsame.
  destruct (files st2 !! original_path id) as [b|]; [|reflexivity].
  destruct (PDFDocument_load b); [|reflexivity].
  destruct (render_fields _ _); [|reflexivity]. cbv zeta.
  destruct (fs_write_ok world); [|reflexivity].
  destruct (validate _ && db_write_ok world); reflexivity.
Qed.

(** An upload without a file is answered 400, one the disk refuses 500, and
    neither changes the server; an upload changes the server only when it is
    answered 200. *)
Theorem upload_pdf_errors (world : World) (file : option bytes) (st : Server) :
  upload_pdf world None st = (Json400 "No PDF uploaded", st)
  /\ (forall buffer,
         fs_write_ok world = false ->
         upload_pdf world (Some buffer) st = (Json500 "PDF upload failed", st))
  /\ ((forall id url, (upload_pdf world file st).1 <> Json200_upload id url) ->
      (upload_pdf world file st).2 = st).
Proof.
  rewrite !upload_pdf_unfold. split; [reflexivity|]. split.
  - intros buffer Hfs. rewrite upload_pdf_unfold. cbv zeta. rewrite Hfs.
    reflexivity.
  - destruct file; [|reflexivity]. cbv zeta.
    destruct (fs_write_ok world); [|reflexivity].
    intros Hno. exfalso. eapply Hno. reflexivity.
Qed.

(** A successful upload stores exactly the uploaded bytes under
    [original/{pdfId}.pdf], answers with the URL of that file, and leaves
    every other file and the audit collection as they were. *)
Theorem upload_pdf_round_trip
    (world : World) (buffer : bytes) (st st' : Server) (id url : string) :
  upload_pdf world (Some buffer) st = (Json200_upload id url, st') ->
  url = BASE_URL +:+ "/files/" +:+ original_path id
  /\ files st' !! original_path id = Some buffer
  /\ (forall path, path <> original_path id -> files st' !! path = files st !! path)
  /\ audits st' = audits st.
Proof.
  rewrite upload_pdf_unfold. cbv zeta.
  destruct (fs_write_ok world); [|discriminate].
  intros [= <- <- <-]. cbn [files audits].
  split; [reflexivity|]. split; [apply lookup_insert_eq|]. split; [|reflexivity].
  intros path Hne. apply lookup_insert_ne. congruence.
Qed.

(** After a successful upload, a finalize call for the returned identifier
    finds the document, and when it answers 200 its [originalHash] is the
    digest of the uploaded bytes. *)
Theorem upload_then_finalize
    (world world2 : World) (buffer : bytes) (st st1 : Server) (id url : string)
    (fields : list Field) :
  upload_pdf world (Some buffer) st = (Json200_upload id url, st1) ->
  (finalize_pdf world2 id fields st1).1 <> Json404 "PDF not found"
  /\ (forall url2 oh fh,
         (finalize_pdf world2 id fields st1).1 = Json200_final url2 oh fh ->
         oh = sha256 buffer).
Proof.
  rewrite upload_pdf_unfold. cbv zeta.
  destruct (fs_write_ok world); [|discriminate].
  intros [= <- _ <-]. rewrite finalize_pdf_unfold. cbn [files].
  rewrite lookup_insert_eq.
  destruct (PDFDocument_load buffer); [|split; [discriminate | intros; discriminate]].
  destruct (render_fields _ _); [|split; [discriminate | intros; discriminate]].
  cbv zeta.
  destruct (fs_write_ok world2); [|split; [discriminate | intros; discriminate]].
  destruct (validate _ && db_write_ok world2); cbn [fst];
    (split; [discriminate|]); intros url2 oh fh; [|discriminate].
  intros [= _ <- _]. reflexivity.
Qed.

Lemma handle_audits (world : World) (req : Request) (st : Server) :
  exists new,
    audits (handle world req st).2 = (audits st ++ new)%list
    /\ (length new <= if is_finalize (world, req) then 1 else 0)%nat
    /\ Forall (fun a => validate a = true) new.
Proof.
  destruct req as [file|id fields]; cbn [handle is_finalize snd].
  - rewrite upload_pdf_unfold. exists [].
    rewrite app_nil_r. split; [|split; [reflexivity | constructor]].
    destruct file; [|reflexivity]. cbv zeta.
    destruct (fs_write_ok world); reflexivity.
  - rewrite finalize_pdf_unfold.
    assert (Hsame : exists new : list Audit,
               audits st = (audits st ++ new)%list
               /\ (length new <= 1)%nat
               /\ Forall (fun a => validate a = true) new).
    { exists []. rewrite app_nil_r. split; [reflexivity|].
      split; [cbn; lia | constructor]. }
    destruct (files st !! original_path id) as [b|]; [|exact Hsame].
    destruct (PDFDocument_load b); [|exact Hsame].
    destruct (render_fields _ _); [|exact Hsame]. cbv zeta.
    destruct (fs_write_ok world); [|exact Hsame].
    destruct (validate _ && db_write_ok world) eqn:Hv; cbn [snd audits];
      [|exact Hsame].
    eexists [_]. split; [reflexivity|]. split; [cbn; lia|].
    apply andb_true_iff in Hv as [Hv _]. repeat constructor. exact Hv.
Qed.

Lemma length_append (s t : string) :
  String.length (s +:+ t) = (String.length s + String.length t)%nat.
Proof.
  induction s as [|c s IH]; [reflexivity|].
  rewrite append_cons. cbn [String.length]. rewrite IH. reflexivity.
Qed.




(** Over any run of requests the audit collection only grows at its end, by
    at most one record per finalize request, and every record in it passes
    the schema if those at the start did. *)
Theorem serve_audits_append_only (reqs : list (World * Request)) (st : Server) :
  (exists new,
      audits (serve reqs st) = (audits st ++ new)%list
      /\ (length new <= length (List.filter is_finalize reqs))%nat)
  /\ (audits_valid st -> audits_valid (serve reqs st)).
Proof.
  revert st. induction reqs as [|[world req] reqs IH]; intros st.
  - split; [|auto]. exists []. rewrite app_nil_r. split; [reflexivity | cbn; lia].
  - cbn [serve]. destruct (handle_audits world req st) as (new1 & H1 & Hl1 & Hv1).
    destruct (IH (handle world req st).2) as [(new2 & H2 & Hl2) Hvalid].
    split.
    + exists (new1 ++ new2)%list. rewrite H2, H1, <- app_assoc.
      split; [reflexivity|]. rewrite length_app. cbn [List.filter].
      destruct (is_finalize (world, req)); cbn [length]; lia.
    + intros Hst. apply Hvalid. unfold audits_valid in *. rewrite H1.
      apply Forall_app. split; assumption.
Qed.


End HandlerProperties.

(** * The earlier revision *)

(** The earlier revision of the two handlers is the later one with
    [BASE_URL] fixed to [http://localhost:5000], up to the wording of the
    400 answer: the same answers and the same state afterwards, with
    [createdAt] filled in by the schema default instead of by the handler. *)
Theorem rev0_agrees
    (sha256 : bytes -> string) (PDFDocument_load : bytes -> option PDFDocument)
    (save : PDFDocument -> bytes) (Buffer_from_base64 : string -> bytes)
    (decodeJpg decodePng : bytes -> option (Q * Q))
    (world : World) (st : Server) :
  (forall id fields,
      finalize_pdf_rev0 sha256 PDFDocument_load save
        Buffer_from_base64 decodeJpg decodePng world id fields st
      = finalize_pdf "http://localhost:5000" sha256 PDFDocument_load save
          Buffer_from_base64 decodeJpg decodePng world id fields st)
  /\ (forall buffer,
         upload_pdf_rev0 world (Some buffer) st
         = upload_pdf "http://localhost:5000" world (Some buffer) st)
  /\ upload_pdf_rev0 world None st = (Json400 "No file uploaded", st).
Proof.
  split; [|split].
  - intros id fields. reflexivity.
  - intros buffer. reflexivity.
  - reflexivity.
Qed.

(** * Further properties of the data-URI handling *)

(** What [replace] returns is the tail of the value: either the whole value,
    or the value without a head of at least twenty characters (the shortest
    prefix the pattern matches, [data:image/x;base64,]). *)
Theorem strip_data_uri_suffix (value : string) :
  exists head,
    value = head +:+ strip_data_uri value
    /\ (head = "" \/ (20 <= String.length head)%nat).
Proof.
  unfold strip_data_uri.
  assert (Hid : exists head, value = head +:+ value
                             /\ (head = "" \/ (20 <= String.length head)%nat))
    by (exists ""; split; [reflexivity | left; reflexivity]).
  destruct (strip_prefix "data:image/" value) as [rest|] eqn:E1; [|exact Hid].
  destruct rest as [|c rest]; [exact Hid|].
  destruct (is_word_char c) eqn:Hc; [|exact Hid].
  destruct (strip_prefix ";base64," (drop_word (String c rest))) as [payload|] eqn:E2;
    [|exact Hid].
  apply strip_prefix_Some in E1, E2.
  destruct (drop_word_split (String c rest)) as (m & Hm & E3).
  assert (Hne : m <> "").
  { intros ->. rewrite append_nil in E3. rewrite <- E3 in E2.
    injection E2 as -> _. discriminate Hc. }
  exists ("data:image/" +:+ m +:+ ";base64,"). split.
  - rewrite E1, E3, E2.
    assert (Hassoc : forall a b d : string, (a +:+ b) +:+ d = a +:+ (b +:+ d)).
    { clear. induction a as [|c a IH]; intros b d; [reflexivity|].
      rewrite !append_cons, IH. reflexivity. }
    rewrite !Hassoc. reflexivity.
  - right. rewrite !length_append. destruct m; [congruence|]. cbn. lia.
Qed.

(** Where a data URI is sent: one labelled [image/jpeg] always goes to the
    JPEG decoder; one labelled [image/png] or [image/jpg] goes to the JPEG
    decoder exactly when the letters "jpeg" occur in its base64 text, and to
    the PNG decoder otherwise.  In each case the decoder gets the decoded
    payload. *)
Theorem embed_value_routing
    (Buffer_from_base64 : string -> bytes)
    (decodeJpg decodePng : bytes -> option (Q * Q)) (payload : string) :
  embed_value Buffer_from_base64 decodeJpg decodePng
    ("data:image/jpeg;base64," +:+ payload)
  = embedJpg decodeJpg (Buffer_from_base64 payload)
  /\ embed_value Buffer_from_base64 decodeJpg decodePng
       ("data:image/png;base64," +:+ payload)
     = (if includes "jpeg" payload
        then embedJpg decodeJpg (Buffer_from_base64 payload)
        else embedPng decodePng (Buffer_from_base64 payload))
  /\ embed_value Buffer_from_base64 decodeJpg decodePng
       ("data:image/jpg;base64," +:+ payload)
     = (if includes "jpeg" payload
        then embedJpg decodeJpg (Buffer_from_base64 payload)
        else embedPng decodePng (Buffer_from_base64 payload)).
Proof.
  pose proof (strip_data_uri_match "jpeg" payload ltac:(discriminate) eq_refl) as Hjpeg.
  pose proof (strip_data_uri_match "png" payload ltac:(discriminate) eq_refl) as Hpng.
  pose proof (strip_data_uri_match "jpg" payload ltac:(discriminate) eq_refl) as Hjpg.
  change ("data:image/" +:+ "jpeg" +:+ ";base64," +:+ payload)
    with ("data:image/jpeg;base64," +:+ payload) in Hjpeg.
  change ("data:image/" +:+ "png" +:+ ";base64," +:+ payload)
    with ("data:image/png;base64," +:+ payload) in Hpng.
  change ("data:image/" +:+ "jpg" +:+ ";base64," +:+ payload)
    with ("data:image/jpg;base64," +:+ payload) in Hjpg.
  unfold embed_value. rewrite Hjpeg, Hpng, Hjpg.
  split; [reflexivity|]. split; reflexivity.
Qed.

(** * The further statements on sample data *)

Lemma sample_upload :
  upload_pdf sample_base sample_world (Some [Byte.x01]) empty_server
  = (Json200_upload "1700000000000"
       "http://localhost:5000/files/original/1700000000000.pdf",
     {| files := <[original_path "1700000000000" := [Byte.x01]]> ∅;
        audits := [] |}).
Proof. rewrite upload_pdf_unfold. reflexivity. Qed.

Lemma render_fields_page_content_witness :
  exists doc',
    render_fields sample_base64 no_decode no_decode blank_doc
      [sample_field "text" "Hello"; sample_field "date" "2024-01-01"] = Ok doc'
    /\ length (pages doc') = 1%nat.
Proof.
  eexists. split; [reflexivity|].
  apply (render_fields_page_content sample_base64 no_decode no_decode blank_doc _
           [sample_field "text" "Hello"; sample_field "date" "2024-01-01"]).
  reflexivity.
Defined.

Lemma render_fields_total_ops_witness :
  exists doc',
    render_fields sample_base64 no_decode no_decode blank_doc
      [sample_field "text" "Hello"; sample_field "checkbox" "on";
       sample_field "date" "2024-01-01"] = Ok doc'
    /\ total_ops doc' = 2%nat /\ length (embedded doc') = 0%nat.
Proof.
  eexists. split; [reflexivity|].
  apply (render_fields_total_ops sample_base64 no_decode no_decode blank_doc _
           [sample_field "text" "Hello"; sample_field "checkbox" "on";
            sample_field "date" "2024-01-01"]).
  reflexivity.
Defined.



Lemma finalize_pdf_answer_matches_storage_witness :
  "http://localhost:5000/files/signed/1-final.pdf"
  = sample_base +:+ "/files/" +:+ signed_path "1".
Proof.
  exact (proj1 (finalize_pdf_answer_matches_storage
                  sample_base sample_sha256 sample_load sample_save
                  sample_base64 no_decode no_decode
                  _ _ _ _ _ _ _ _ sample_finalize)).
Defined.

Lemma finalize_pdf_reads_original_only_witness :
  (finalize_pdf sample_base sample_sha256 sample_load sample_save
     sample_base64 no_decode no_decode sample_world "1"
     [sample_field "text" "Hello"] sample_server).1
  = (finalize_pdf sample_base sample_sha256 sample_load sample_save
       sample_base64 no_decode no_decode sample_world "1"
       [sample_field "text" "Hello"]
       {| files := files sample_server;
          audits := [ {| pdfId := "0"; originalHash := "00"; finalHash := "01";
                         createdAt := 0 |} ] |}).1.
Proof.
  apply finalize_pdf_reads_original_only. reflexivity.
Defined.

Lemma upload_pdf_round_trip_witness :
  files {| files := <[original_path "1700000000000" := [Byte.x01]]> ∅;
           audits := [] |} !! original_path "1700000000000"
  = Some [Byte.x01].
Proof.
  exact (proj1 (proj2 (upload_pdf_round_trip sample_base _ _ _ _ _ _ sample_upload))).
Defined.

Lemma upload_then_finalize_witness :
  (finalize_pdf sample_base sample_sha256 sample_load sample_save
     sample_base64 no_decode no_decode later_world "1700000000000"
     [sample_field "text" "Hello"]
     {| files := <[original_path "1700000000000" := [Byte.x01]]> ∅;
        audits := [] |}).1
  <> Json404 "PDF not found".
Proof.
  exact (proj1 (upload_then_finalize sample_base sample_sha256 sample_load sample_save
                  sample_base64 no_decode no_decode
                  _ later_world _ _ _ _ _ [sample_field "text" "Hello"]
                  sample_upload)).
Defined.


Lemma finalize_pdf_audit_rejected_witness :
  finalize_pdf sample_base sample_sha256 sample_load sample_save
    sample_base64 no_decode no_decode db_down_world "1"
    [sample_field "text" "Hello"] sample_server
  = (Json500 "PDF finalization failed",
     {| files := <[signed_path "1" := []]> (files sample_server);
        audits := [] |}).
Proof.
  eapply (finalize_pdf_audit_rejected sample_base sample_sha256 sample_load sample_save
            sample_base64 no_decode no_decode db_down_world "1"
            [sample_field "text" "Hello"] sample_server [] blank_doc).
  - exact sample_server_lookup.
  - reflexivity.
  - reflexivity.
  - reflexivity.
  - reflexivity.
Defined.

Lemma upload_pdf_distinct_clock_witness :
  "1700000000000" <> "1700000000001".
Proof.
  eapply (upload_pdf_distinct_clock sample_base sample_world later_world
            empty_server empty_server _ _ (Some [Byte.x01]) (Some [Byte.x02])).
  - exact sample_upload.
  - rewrite upload_pdf_unfold. reflexivity.
  - discriminate.
Defined.
